(** * Session management of sokoverse (src/lib/server/auth/session.ts)
    and the Google login-initiation route (GET handler).

    Timestamps are milliseconds since the epoch, as [Date.now()] and
    [Date.getTime()] return them, modelled as [Z].  Each [Date.now()] call
    of the source is one explicit clock reading argument, in source order.
    The database is the pair of tables the code queries: [sessionTable],
    keyed by its primary key [id], and [userTable], keyed by the user id.
    The token hash [encodeHexLowerCase(sha256(new TextEncoder().encode(t)))]
    is the section variable [hashToken]. *)

From Stdlib Require Import ZArith Lia.
From stdpp Require Import base gmap strings list.

Open Scope Z_scope.

Module SessionStore.

(** [Session] row of the schema: [{ id, userId, expiresAt }]. *)
Record Session := mkSession {
  id : string;
  userId : Z;
  expiresAt : Z
}.

(** The two tables; the user row type is left abstract. *)
Record DB (User : Type) := mkDB {
  sessionTable : gmap string Session;
  userTable : gmap Z User
}.
Arguments mkDB {User} _ _.
Arguments sessionTable {User} _.
Arguments userTable {User} _.

(** [SessionValidationResult]:
    [{ session: Session; user: User } | { session: null; user: null }]. *)
Inductive SessionValidationResult (User : Type) :=
| NoSession
| Valid (session : Session) (user : User).
Arguments NoSession {User}.
Arguments Valid {User} _ _.

(** [1000 * 60 * 60 * 24]: one day in milliseconds. *)
Definition DAY : Z := 1000 * 60 * 60 * 24.

Section SessionManager.

Context {User : Type}.
(** [encodeHexLowerCase(sha256(new TextEncoder().encode(token)))]. *)
Context (hashToken : string -> string).

Implicit Types (db : DB User) (token sid : string) (uid now : Z).

(** Schema constraints of the tables: a session row is stored under its
    primary key [id], and its [userId] references an existing user row
    (the foreign key of the data model). *)
Definition db_wf db : Prop :=
  forall k s, sessionTable db !! k = Some s ->
    id s = k /\ is_Some (userTable db !! userId s).

(** [db.insert(sessionTable).values(session)]: rejected (the promise
    rejects) when the primary key is taken or the foreign key dangles. *)
Definition insert_session (s : Session) db : option (DB User) :=
  match sessionTable db !! id s, userTable db !! userId s with
  | None, Some _ => Some (mkDB (<[id s := s]> (sessionTable db)) (userTable db))
  | _, _ => None
  end.

(** [db.delete(sessionTable).where(eq(sessionTable.id, sid))]. *)
Definition delete_session_by_id sid db : DB User :=
  mkDB (delete sid (sessionTable db)) (userTable db).

(** [db.delete(sessionTable).where(eq(sessionTable.userId, uid))]. *)
Definition delete_sessions_by_user uid db : DB User :=
  mkDB (filter (fun kv : string * Session => userId kv.2 <> uid) (sessionTable db))
       (userTable db).

(** [db.update(sessionTable).set({ expiresAt: e }).where(eq(sessionTable.id, sid))]. *)
Definition update_expiresAt sid (e : Z) db : DB User :=
  mkDB (alter (fun s => mkSession (id s) (userId s) e) sid (sessionTable db))
       (userTable db).

(** [db.select({ user: userTable, session: sessionTable }).from(sessionTable)
      .innerJoin(userTable, eq(sessionTable.userId, userTable.id))
      .where(eq(sessionTable.id, sid))], [result[0]] if any. *)
Definition select_session_user sid db : option (User * Session) :=
  match sessionTable db !! sid with
  | Some s =>
      match userTable db !! userId s with
      | Some u => Some (u, s)
      | None => None
      end
  | None => None
  end.

(** [createSession(token, userId)]; [now] is its [Date.now()] reading. *)
Definition createSession token uid now db : option (Session * DB User) :=
  let sessionId := hashToken token in
  let session := mkSession sessionId uid (now + DAY * 30) in
  match insert_session session db with
  | Some db' => Some (session, db')
  | None => None
  end.

(** [validateSessionToken(token)]; [t1], [t2], [t3] are the three
    [Date.now()] readings of lines 65, 69 and 70. *)
Definition validateSessionToken token (t1 t2 t3 : Z) db
    : SessionValidationResult User * DB User :=
  let sessionId := hashToken token in
  match select_session_user sessionId db with
  | None => (NoSession, db)
  | Some (user, session) =>
      if t1 >=? expiresAt session then
        (NoSession, delete_session_by_id (id session) db)
      else if t2 >=? expiresAt session - DAY * 15 then
        let e := t3 + DAY * 30 in
        (Valid (mkSession (id session) (userId session) e) user,
         update_expiresAt (id session) e db)
      else (Valid session user, db)
  end.

(** Validation at one instant: every clock reading is [now]. *)
Definition validate_at token now db := validateSessionToken token now now now db.

(** [invalidateSession(sessionId)]. *)
Definition invalidateSession sid db : DB User := delete_session_by_id sid db.

(** [invalidateAllSessions(userId)]. *)
Definition invalidateAllSessions uid db : DB User := delete_sessions_by_user uid db.

(** Cache directives of a ["use cache"] function:
    [cacheLife({ stale, revalidate, expire })], in seconds. *)
Record CacheLife := mkCacheLife { stale : Z; revalidate : Z; expire : Z }.

(** One cache entry: the returned value, the [cacheTag] tags and the
    [cacheLife] profile; [None] means that [cacheLife] was not called, so
    the entry keeps the default profile of ["use cache"]. *)
Record CacheEntry := mkCacheEntry {
  value : SessionValidationResult User;
  tags : list string;
  life : option CacheLife
}.

(** Body of [getCurrentSessionCached(token)]; [t1], [t2], [t3] are the
    clock readings of [validateSessionToken], [t4] is line 164. *)
Definition getCurrentSessionCached_body (token : option string) (t1 t2 t3 t4 : Z) db
    : CacheEntry * DB User :=
  match token with
  | None => (mkCacheEntry NoSession [] None, db)
  | Some tk =>
      let '(result, db') := validateSessionToken tk t1 t2 t3 db in
      match result with
      | NoSession => (mkCacheEntry NoSession [] None, db')
      | Valid session _ =>
          let tag := "session:" +:+ id session in
          let remainingTime := Z.max 0 ((expiresAt session - t4) / 1000) in
          (mkCacheEntry result [tag]
             (Some (mkCacheLife 0 remainingTime remainingTime)), db')
      end
  end.

(** The ["use cache"] wrapper: entries are keyed by the argument; a hit
    returns the stored value without running the body, a miss runs the
    body and stores its entry, whatever the value. *)
Definition getCurrentSessionCached (cache : gmap (option string) CacheEntry)
    (token : option string) (t1 t2 t3 t4 : Z) db
    : SessionValidationResult User * gmap (option string) CacheEntry * DB User :=
  match cache !! token with
  | Some e => (value e, cache, db)
  | None =>
      let '(e, db') := getCurrentSessionCached_body token t1 t2 t3 t4 db in
      (value e, <[token := e]> cache, db')
  end.

(** [getCurrentSession()]: [cookieStore.get("session")?.value ?? null]. *)
Definition getCurrentSession (cookieStore : gmap string string)
    (cache : gmap (option string) CacheEntry) (t1 t2 t3 t4 : Z) db :=
  getCurrentSessionCached cache (cookieStore !! "session") t1 t2 t3 t4 db.

(** Calls of the session manager that touch the database, with their
    clock readings. *)
Inductive Op :=
| OpCreate (token : string) (uid : Z) (now : Z)
| OpValidate (token : string) (t1 t2 t3 : Z)
| OpInvalidate (sid : string)
| OpInvalidateAll (uid : Z).

(** Effect of one call on the database; a rejected insert leaves it
    unchanged. *)
Definition step db (op : Op) : DB User :=
  match op with
  | OpCreate token uid now =>
      match createSession token uid now db with
      | Some (_, db') => db'
      | None => db
      end
  | OpValidate token t1 t2 t3 => snd (validateSessionToken token t1 t2 t3 db)
  | OpInvalidate sid => invalidateSession sid db
  | OpInvalidateAll uid => invalidateAllSessions uid db
  end.

Definition run (ops : list Op) db : DB User := foldl step db ops.

(** Two calls that differ at most in their raw tokens, and only between
    tokens of equal hash. *)
Definition same_up_to_hash (o1 o2 : Op) : Prop :=
  match o1, o2 with
  | OpCreate k1 u1 n1, OpCreate k2 u2 n2 =>
      hashToken k1 = hashToken k2 /\ u1 = u2 /\ n1 = n2
  | OpValidate k1 a1 b1 c1, OpValidate k2 a2 b2 c2 =>
      hashToken k1 = hashToken k2 /\ a1 = a2 /\ b1 = b2 /\ c1 = c2
  | _, _ => o1 = o2
  end.

(** The entry cached for a request without a session cookie ([null]) holds
    "no session". *)
Definition cache_wf (cache : gmap (option string) CacheEntry) : Prop :=
  forall e, cache !! None = Some e -> value e = NoSession.

End SessionManager.

End SessionStore.

Module GoogleLogin.

(** A [URL] object: the part before the query and its [searchParams]
    in order. *)
Record URL := mkURL { base : string; searchParams : list (string * string) }.

(** [URLSearchParams.set(name, value)]: the first pair named [name] gets
    [value] and the later ones are removed; with none, the pair is
    appended. *)
Fixpoint params_set (name v : string) (ps : list (string * string))
    : list (string * string) :=
  match ps with
  | [] => [(name, v)]
  | (k, w) :: rest =>
      if bool_decide (k = name)
      then (name, v) :: filter (fun kv : string * string => kv.1 <> name) rest
      else (k, w) :: params_set name v rest
  end.

Definition url_set_param (name v : string) (u : URL) : URL :=
  mkURL (base u) (params_set name v (searchParams u)).

(** [URLSearchParams.get(name)]: the value of the first pair named [name]. *)
Fixpoint params_get (name : string) (ps : list (string * string)) : option string :=
  match ps with
  | [] => None
  | (k, w) :: rest => if bool_decide (k = name) then Some w else params_get name rest
  end.

(** Options of [cookieStore.set(name, value, options)]. *)
Record CookieOptions := mkCookieOptions {
  path : string;
  httpOnly : bool;
  secure : bool;
  maxAge : option Z;
  sameSite : string
}.

(** The response cookie store: [set] overwrites a cookie of the same name. *)
Abbreviation CookieStore := (gmap string (string * CookieOptions)).

(** [new Response(null, { status, headers })]. *)
Record Response := mkResponse {
  status : Z;
  headers : list (string * string);
  body : option string
}.

Section Handler.

(** [google.createAuthorizationURL(state, codeVerifier, scopes)] of the
    arctic client, and [URL.prototype.toString]: library code. *)
Context (createAuthorizationURL : string -> string -> list string -> URL).
Context (url_toString : URL -> string).

(** [process.env.NODE_ENV === "production"]. *)
Definition is_production (NODE_ENV : string) : bool := bool_decide (NODE_ENV = "production").

(** The options literal shared by both cookies of [GET]. *)
Definition oauth_cookie_options (NODE_ENV : string) : CookieOptions :=
  mkCookieOptions "/" true (is_production NODE_ENV) (Some (60 * 10)) "lax".

(** [GET()]; [state] and [codeVerifier] are the values returned by
    [generateState()] and [generateCodeVerifier()]. *)
Definition GET (state codeVerifier NODE_ENV : string) (cookieStore : CookieStore)
    : Response * CookieStore :=
  let url := createAuthorizationURL state codeVerifier ["openid"; "profile"] in
  let url := url_set_param "prompt" "select_account" url in
  let cookieStore :=
    <["google_oauth_state" := (state, oauth_cookie_options NODE_ENV)]> cookieStore in
  let cookieStore :=
    <["google_code_verifier" := (codeVerifier, oauth_cookie_options NODE_ENV)]> cookieStore in
  (mkResponse 302 [("Location", url_toString url)] None, cookieStore).

End Handler.

End GoogleLogin.

(** * Session cookie helpers of session.ts. *)
Module SessionCookies.

(** Options of [cookieStore.set("session", value, options)]: [expires] is a
    [Date] in milliseconds, [maxAge] in seconds; absent fields are [None]. *)
Record SessionCookieOptions := mkSessionCookieOptions {
  httpOnly : bool;
  sameSite : string;
  secure : bool;
  expires : option Z;
  maxAge : option Z;
  path : string
}.

(** The response cookie store: [set] overwrites a cookie of the same name. *)
Abbreviation SessionCookieStore := (gmap string (string * SessionCookieOptions)).

(** [setSessionTokenCookie(token, expiresAt)]. *)
Definition setSessionTokenCookie (NODE_ENV token : string) (expiresAt : Z)
    (cookieStore : SessionCookieStore) : SessionCookieStore :=
  <["session" := (token, mkSessionCookieOptions true "lax"
                           (GoogleLogin.is_production NODE_ENV)
                           (Some expiresAt) None "/")]> cookieStore.

(** [deleteSessionTokenCookie()]. *)
Definition deleteSessionTokenCookie (NODE_ENV : string)
    (cookieStore : SessionCookieStore) : SessionCookieStore :=
  <["session" := ("", mkSessionCookieOptions true "lax"
                        (GoogleLogin.is_production NODE_ENV)
                        None (Some 0) "/")]> cookieStore.

End SessionCookies.

(** * src/components/ThemedHeroIcon.tsx *)
Module HeroIcon.

(** The [switch (theme)] choosing the icon; [theme] of [useTheme()] is
    [string | undefined]. *)
Definition icon_src (theme : option string) : string :=
  match theme with
  | Some t =>
      if String.eqb t "green" then "/icon.png"
      else if String.eqb t "blue" then "/icon-blue.png"
      else if String.eqb t "purple" then "/icon-purple.png"
      else if String.eqb t "monochrome" then "/icon-gray.png"
      else "/icon.png"
  | None => "/icon.png"
  end.

(** [ThemedHeroIcon()]: [None] is the [return null] before mounting,
    [Some src] the [<Image src={src} .../>] rendered afterwards. *)
Definition ThemedHeroIcon (mounted : bool) (theme : option string) : option string :=
  if negb mounted then None else Some (icon_src theme).

End HeroIcon.

Module SessionFacts.
Import SessionStore.

Section Facts.

Context {User : Type}.
Context (hashToken : string -> string).

Implicit Types (db : DB User) (token sid : string) (uid now : Z).

Lemma DAY_pos : 0 < DAY.
Proof. unfold DAY. lia. Qed.

Lemma geb_false_lt (x y : Z) : (x >=? y) = false -> x < y.
Proof. rewrite Z.geb_leb. intros H. apply Z.leb_gt in H. exact H. Qed.

Lemma geb_true_of_le (x y : Z) : y <= x -> (x >=? y) = true.
Proof. intros H. apply Z.geb_le. exact H. Qed.

Lemma geb_false_of_lt (x y : Z) : x < y -> (x >=? y) = false.
Proof. intros H. rewrite Z.geb_leb. apply Z.leb_gt. exact H. Qed.

(** The join finds the session stored under the hash together with its
    owner, exactly when both rows exist. *)
Lemma select_session_user_Some sid db u s :
  select_session_user sid db = Some (u, s) <->
  sessionTable db !! sid = Some s /\ userTable db !! userId s = Some u.
Proof.
  unfold select_session_user.
  destruct (sessionTable db !! sid) as [s0|]; [|split; [discriminate | intros [H _]; discriminate]].
  destruct (userTable db !! userId s0) as [u0|] eqn:Hu.
  - split.
    + intros H; inversion H; subst; auto.
    + intros [H1 H2]; inversion H1; subst. rewrite Hu in H2. inversion H2; subst. reflexivity.
  - split; [discriminate|]. intros [H1 H2]; inversion H1; subst. congruence.
Qed.

Lemma select_session_user_wf sid db s :
  db_wf db -> sessionTable db !! sid = Some s ->
  exists u, select_session_user sid db = Some (u, s) /\ id s = sid.
Proof.
  intros Hwf Hs. destruct (Hwf _ _ Hs) as [Hid [u Hu]].
  exists u. split; [|exact Hid]. apply select_session_user_Some. auto.
Qed.

(** ** C1 *)

(** C1: right after [createSession(token, userId)] succeeds, validating the
    same token at the same instant returns the created session and the
    user row of [userId], and writes nothing. *)
Theorem validate_after_create token uid now db s db' :
  createSession hashToken token uid now db = Some (s, db') ->
  exists u, userTable db !! uid = Some u /\
    validate_at hashToken token now db' = (Valid s u, db').
Proof.
  unfold createSession, insert_session; simpl.
  destruct (sessionTable db !! hashToken token) eqn:Hk; [discriminate|].
  destruct (userTable db !! uid) as [u|] eqn:Hu; [|discriminate].
  intros H; inversion H; subst; clear H.
  exists u; split; [reflexivity|].
  unfold validate_at, validateSessionToken, select_session_user; simpl.
  rewrite lookup_insert_eq; simpl. rewrite Hu.
  pose proof DAY_pos. simpl.
  destruct (now >=? now + DAY * 30) eqn:E1; [apply Z.geb_le in E1; lia|].
  destruct (now >=? now + DAY * 30 - DAY * 15) eqn:E2; [apply Z.geb_le in E2; lia|].
  reflexivity.
Qed.

(** ** C3 *)

(** C3: a stored session validated at or after its expiry (first clock
    reading [t1 >= expiresAt]) yields "no session", and its row is deleted. *)
Theorem validate_expired_deletes token t1 t2 t3 db s :
  db_wf db ->
  sessionTable db !! hashToken token = Some s ->
  expiresAt s <= t1 ->
  validateSessionToken hashToken token t1 t2 t3 db
    = (NoSession, delete_session_by_id (hashToken token) db) /\
  sessionTable (delete_session_by_id (hashToken token) db) !! hashToken token = None.
Proof.
  intros Hwf Hs Hle.
  destruct (select_session_user_wf _ _ _ Hwf Hs) as [u [Hsel Hid]].
  split.
  - unfold validateSessionToken. rewrite Hsel.
    destruct (t1 >=? expiresAt s) eqn:E; [|apply geb_false_lt in E; lia].
    rewrite Hid. reflexivity.
  - simpl. apply lookup_delete_eq.
Qed.

(** ** C5 *)

(** C5: validation returns a session exactly when a row is stored under the
    token's hash, its expiry is after the first clock reading, and its
    owner's user row exists; a session without its user yields
    "no session". *)
Theorem validate_valid_iff token t1 t2 t3 db :
  fst (validateSessionToken hashToken token t1 t2 t3 db) <> NoSession <->
  exists s, sessionTable db !! hashToken token = Some s /\
            t1 < expiresAt s /\ is_Some (userTable db !! userId s).
Proof.
  unfold validateSessionToken.
  destruct (select_session_user (hashToken token) db) as [[u s]|] eqn:Hsel.
  - apply select_session_user_Some in Hsel as [Hs Hu].
    destruct (t1 >=? expiresAt s) eqn:E1.
    + simpl. split; [intros H; congruence|].
      intros [s' [Hs' [Hlt _]]]. rewrite Hs in Hs'. inversion Hs'; subst.
      apply Z.geb_le in E1. lia.
    + apply geb_false_lt in E1.
      split; [intros _; exists s; repeat split; eauto|].
      intros _. destruct (t2 >=? expiresAt s - DAY * 15); simpl; discriminate.
  - simpl. split; [intros H; congruence|].
    intros [s [Hs [_ [u Hu]]]].
    assert (select_session_user (hashToken token) db = Some (u, s)) as Hsel'
      by (apply select_session_user_Some; auto).
    congruence.
Qed.

(** ** C10 *)

(** C10: a session returned by validation expires more than 15 days after
    the clock readings that decided it (readings taken in order). *)
Theorem validate_returns_fresh token t1 t2 t3 db s u db' :
  t1 <= t2 <= t3 ->
  validateSessionToken hashToken token t1 t2 t3 db = (Valid s u, db') ->
  t1 + DAY * 15 < expiresAt s /\ t2 + DAY * 15 < expiresAt s.
Proof.
  intros Ht. pose proof DAY_pos as Hday. unfold validateSessionToken.
  destruct (select_session_user (hashToken token) db) as [[u0 s0]|]; [|discriminate].
  destruct (t1 >=? expiresAt s0) eqn:E1; [discriminate|].
  destruct (t2 >=? expiresAt s0 - DAY * 15) eqn:E2; intros H; inversion H; subst; simpl.
  - lia.
  - apply geb_false_lt in E2. lia.
Qed.

(** ** C2 *)

(** C2: for a stored session, validation at one instant inside the last 15
    days before expiry returns it with expiry [now + 30 days] and writes
    that expiry to its row; earlier, it is returned unchanged and nothing is
    written.  The example: created at [t0], validated at [t0 + 20 days] it
    expires at [t0 + 50 days], and validated again at [t0 + 51 days] it is
    gone. *)
Theorem validate_sliding_window token :
  (forall now db s,
     db_wf db ->
     sessionTable db !! hashToken token = Some s ->
     (expiresAt s - DAY * 15 <= now < expiresAt s ->
        exists u,
          validate_at hashToken token now db =
            (Valid (mkSession (id s) (userId s) (now + DAY * 30)) u,
             update_expiresAt (hashToken token) (now + DAY * 30) db) /\
          sessionTable (update_expiresAt (hashToken token) (now + DAY * 30) db)
            !! hashToken token = Some (mkSession (id s) (userId s) (now + DAY * 30))) /\
     (now < expiresAt s - DAY * 15 ->
        exists u, validate_at hashToken token now db = (Valid s u, db))) /\
  (forall uid t0 db0 s0 db1,
     createSession hashToken token uid t0 db0 = Some (s0, db1) ->
     exists u db2,
       validate_at hashToken token (t0 + DAY * 20) db1 =
         (Valid (mkSession (hashToken token) uid (t0 + DAY * 50)) u, db2) /\
       fst (validate_at hashToken token (t0 + DAY * 51) db2) = NoSession).
Proof.
  pose proof DAY_pos as Hday. split.
  - intros now db s Hwf Hs.
    destruct (select_session_user_wf _ _ _ Hwf Hs) as [u [Hsel Hid]].
    unfold validate_at, validateSessionToken. rewrite Hsel.
    split; intros Hnow; exists u.
    + destruct (now >=? expiresAt s) eqn:E1; [apply Z.geb_le in E1; lia|].
      destruct (now >=? expiresAt s - DAY * 15) eqn:E2; [|apply geb_false_lt in E2; lia].
      rewrite Hid. split; [reflexivity|].
      simpl. rewrite lookup_alter_eq, Hs. simpl. rewrite Hid. reflexivity.
    + destruct (now >=? expiresAt s) eqn:E1; [apply Z.geb_le in E1; lia|].
      destruct (now >=? expiresAt s - DAY * 15) eqn:E2; [apply Z.geb_le in E2; lia|].
      reflexivity.
  - intros uid t0 db0 s0 db1 Hc.
    unfold createSession, insert_session in Hc; simpl in Hc.
    destruct (sessionTable db0 !! hashToken token) eqn:Hk; [discriminate|].
    destruct (userTable db0 !! uid) as [u|] eqn:Hu; [|discriminate].
    inversion Hc; subst; clear Hc.
    exists u.
    eexists. split.
    + unfold validate_at, validateSessionToken, select_session_user; simpl.
      rewrite lookup_insert_eq; simpl. rewrite Hu.
      cbn [expiresAt id userId].
      rewrite (geb_false_of_lt (t0 + DAY * 20) (t0 + DAY * 30)) by lia.
      rewrite (geb_true_of_le (t0 + DAY * 20) (t0 + DAY * 30 - DAY * 15)) by lia.
      simpl. replace (t0 + DAY * 20 + DAY * 30) with (t0 + DAY * 50) by lia.
      reflexivity.
    + unfold validate_at, validateSessionToken, select_session_user,
        update_expiresAt; simpl.
      rewrite lookup_alter_eq, lookup_insert_eq; simpl. rewrite Hu.
      cbn [expiresAt id userId].
      rewrite (geb_true_of_le (t0 + DAY * 51) (t0 + DAY * 50)) by lia.
      reflexivity.
Qed.

(** ** C7 *)

(** C7: [invalidateAllSessions(uid)] deletes exactly the rows of [uid] and
    keeps every other row; both invalidations leave the database unchanged
    when no row matches, and repeating them changes nothing. *)
Theorem invalidate_frame uid db :
  (forall k, sessionTable (invalidateAllSessions uid db) !! k =
     match sessionTable db !! k with
     | Some s => if bool_decide (userId s = uid) then None else Some s
     | None => None
     end) /\
  ((forall k s, sessionTable db !! k = Some s -> userId s <> uid) ->
     invalidateAllSessions uid db = db) /\
  (forall sid, sessionTable db !! sid = None -> invalidateSession sid db = db) /\
  invalidateAllSessions uid (invalidateAllSessions uid db) = invalidateAllSessions uid db /\
  (forall sid, invalidateSession sid (invalidateSession sid db) = invalidateSession sid db).
Proof.
  destruct db as [T U].
  unfold invalidateAllSessions, delete_sessions_by_user, invalidateSession,
    delete_session_by_id; simpl.
  split; [|split; [|split; [|split]]].
  - intros k. rewrite map_lookup_filter.
    destruct (T !! k) as [s|]; simpl; [|reflexivity].
    case_bool_decide as Hu.
    + rewrite option_guard_False; [reflexivity|]. simpl. tauto.
    + rewrite option_guard_True; [reflexivity|]. simpl. exact Hu.
  - intros Hno. f_equal. apply map_filter_id. intros i x Hx. simpl. exact (Hno _ _ Hx).
  - intros sid Hn. f_equal. apply delete_id. exact Hn.
  - f_equal. apply map_filter_filter_l. intros i x _ Hx. exact Hx.
  - intros sid. f_equal. apply delete_delete_eq.
Qed.

Lemma update_expiresAt_idem sid e db :
  update_expiresAt sid e (update_expiresAt sid e db) = update_expiresAt sid e db.
Proof.
  destruct db as [T U]. unfold update_expiresAt; simpl. f_equal.
  apply map_eq. intros k. destruct (decide (sid = k)) as [->|Hne].
  - rewrite !lookup_alter_eq. destruct (T !! k); reflexivity.
  - rewrite !lookup_alter_ne by exact Hne. reflexivity.
Qed.

Lemma delete_session_by_id_idem sid db :
  delete_session_by_id sid (delete_session_by_id sid db) = delete_session_by_id sid db.
Proof. unfold delete_session_by_id; simpl. f_equal. apply delete_delete_eq. Qed.

(** ** C9 *)

(** C9: at one instant, validating twice gives the same result and the same
    database as validating once; a renewal writes [now + 30 days] whatever
    the previous expiry; and writing the same expiry twice equals writing
    it once. *)
Theorem validate_renewal_idempotent token now db :
  validate_at hashToken token now (snd (validate_at hashToken token now db))
    = validate_at hashToken token now db /\
  (forall s u,
     fst (validate_at hashToken token now db) = Valid s u ->
     snd (validate_at hashToken token now db) <> db ->
     expiresAt s = now + DAY * 30 /\
     snd (validate_at hashToken token now db) = update_expiresAt (id s) (now + DAY * 30) db) /\
  (forall sid e, update_expiresAt sid e (update_expiresAt sid e db) = update_expiresAt sid e db).
Proof.
  pose proof DAY_pos as Hday.
  split; [|split; [|intros sid e; apply update_expiresAt_idem]].
  - unfold validate_at, validateSessionToken.
    destruct (select_session_user (hashToken token) db) as [[u s]|] eqn:Hsel;
      [|simpl; rewrite Hsel; reflexivity].
    pose proof Hsel as Hsel0. apply select_session_user_Some in Hsel0 as [Hs Hu].
    destruct (now >=? expiresAt s) eqn:E1.
    + simpl. unfold select_session_user at 1; simpl.
      destruct (decide (id s = hashToken token)) as [Heq|Hne].
      * rewrite Heq, lookup_delete_eq. reflexivity.
      * rewrite lookup_delete_ne by exact Hne. rewrite Hs, Hu, E1.
        rewrite delete_session_by_id_idem. reflexivity.
    + destruct (now >=? expiresAt s - DAY * 15) eqn:E2.
      * simpl. unfold select_session_user at 1; simpl.
        destruct (decide (id s = hashToken token)) as [Heq|Hne].
        -- rewrite <- Heq at 1. rewrite lookup_alter_eq.
           rewrite <- Heq in Hs. rewrite Hs. simpl. rewrite Hu.
           cbn [expiresAt id userId].
           rewrite (geb_false_of_lt now (now + DAY * 30)) by lia.
           rewrite (geb_false_of_lt now (now + DAY * 30 - DAY * 15)) by lia.
           reflexivity.
        -- rewrite lookup_alter_ne by exact Hne. rewrite Hs, Hu, E1, E2.
           rewrite update_expiresAt_idem. reflexivity.
      * simpl. rewrite Hsel, E1, E2. reflexivity.
  - intros s' u'. unfold validate_at, validateSessionToken.
    destruct (select_session_user (hashToken token) db) as [[u s]|];
      [|simpl; discriminate].
    destruct (now >=? expiresAt s); [simpl; discriminate|].
    destruct (now >=? expiresAt s - DAY * 15); simpl.
    + intros H _. inversion H; subst. simpl. split; reflexivity.
    + intros _ Hne. exfalso. apply Hne. reflexivity.
Qed.

(** A call of the session manager has the same effect on the database as
    the same call with another token of equal hash. *)
Lemma step_same_up_to_hash o1 o2 db :
  same_up_to_hash hashToken o1 o2 ->
  step hashToken db o1 = step hashToken db o2.
Proof.
  destruct o1 as [k1 u1 n1|k1 a1 b1 c1|sid1|uid1];
  destruct o2 as [k2 u2 n2|k2 a2 b2 c2|sid2|uid2]; simpl;
    try (intros H; discriminate H).
  - intros (Hk & -> & ->). unfold createSession. rewrite Hk. reflexivity.
  - intros (Hk & -> & -> & ->). unfold validateSessionToken. rewrite Hk. reflexivity.
  - intros H. inversion H. reflexivity.
  - intros H. inversion H. reflexivity.
Qed.

(** ** C4 *)

(** C4: the raw token is never stored: [createSession] stores the row under
    the token's hash with the hash as [id]; [validateSessionToken] depends
    on the token only through its hash; and the database after any sequence
    of calls is the same when tokens are replaced by tokens of equal hash. *)
Theorem token_only_hash_persisted :
  (forall token uid now db s db',
     createSession hashToken token uid now db = Some (s, db') ->
     id s = hashToken token /\
     sessionTable db' = <[hashToken token := s]> (sessionTable db) /\
     userTable db' = userTable db) /\
  (forall token token' t1 t2 t3 db,
     hashToken token = hashToken token' ->
     validateSessionToken hashToken token t1 t2 t3 db
       = validateSessionToken hashToken token' t1 t2 t3 db) /\
  (forall ops1 ops2 db,
     Forall2 (same_up_to_hash hashToken) ops1 ops2 ->
     run hashToken ops1 db = run hashToken ops2 db).
Proof.
  split; [|split].
  - intros token uid now db s db'. unfold createSession, insert_session; simpl.
    destruct (sessionTable db !! hashToken token); [discriminate|].
    destruct (userTable db !! uid); [|discriminate].
    intros H; inversion H; subst. simpl. auto.
  - intros token token' t1 t2 t3 db Hk. unfold validateSessionToken. rewrite Hk. reflexivity.
  - intros ops1 ops2 db Hall. revert db.
    induction Hall as [|o1 o2 l1 l2 Ho _ IH]; intros db; [reflexivity|].
    unfold run; simpl. rewrite (step_same_up_to_hash o1 o2 db Ho). apply IH.
Qed.

(** ** C6 *)

(** The lifetime set for a returned session: [remainingTime] seconds do
    not outlast the session. *)
Lemma remainingTime_bound (exp t4 : Z) :
  t4 <= exp -> t4 + 1000 * Z.max 0 ((exp - t4) / 1000) <= exp.
Proof.
  intros H.
  assert (0 <= (exp - t4) / 1000) by (apply Z.div_pos; lia).
  pose proof (Z.mul_div_le (exp - t4) 1000 ltac:(lia)).
  rewrite Z.max_r by lia. lia.
Qed.

(** C6 (amended): [getCurrentSessionCached] keeps one entry per token
    value.  A hit returns the stored value and touches nothing.  A miss
    validates and stores the entry whatever the value: a session is stored
    with the single tag ["session:" ++ id] and the lifetime
    [{ stale: 0, revalidate: r, expire: r }], [r] the whole seconds left
    (never past the session's expiry when the session is still live at the
    last clock reading); "no session" is stored with no tag and no
    [cacheLife] call, i.e. the default profile. *)
Theorem getCurrentSessionCached_entry cache (token : option string) (t1 t2 t3 t4 : Z) db :
  (forall e, cache !! token = Some e ->
     getCurrentSessionCached hashToken cache token t1 t2 t3 t4 db = (value e, cache, db)) /\
  (cache !! token = None ->
     exists e db',
       getCurrentSessionCached hashToken cache token t1 t2 t3 t4 db
         = (value e, <[token := e]> cache, db') /\
       match value e with
       | NoSession => tags e = [] /\ life e = None
       | Valid s _ =>
           tags e = ["session:" +:+ id s] /\
           life e = Some (mkCacheLife 0 (Z.max 0 ((expiresAt s - t4) / 1000))
                                        (Z.max 0 ((expiresAt s - t4) / 1000))) /\
           (t4 <= expiresAt s ->
              t4 + 1000 * Z.max 0 ((expiresAt s - t4) / 1000) <= expiresAt s)
       end).
Proof.
  unfold getCurrentSessionCached. split.
  - intros e He. rewrite He. reflexivity.
  - intros Hn. rewrite Hn.
    destruct (getCurrentSessionCached_body hashToken token t1 t2 t3 t4 db) as [e db'] eqn:Hb.
    exists e, db'. split; [reflexivity|].
    unfold getCurrentSessionCached_body in Hb.
    destruct token as [tk|]; [|inversion Hb; subst; simpl; auto].
    destruct (validateSessionToken hashToken tk t1 t2 t3 db) as [[|s u] db0].
    + inversion Hb; subst; simpl; auto.
    + inversion Hb; subst; simpl. split; [reflexivity|]. split; [reflexivity|].
      apply remainingTime_bound.
Qed.

End Facts.

(** C6 counterexample: for a request without a session cookie, the entry
    cached for [null] carries no [session:] tag and no [cacheLife]
    profile tied to a session. *)
Lemma getCurrentSessionCached_no_session_untagged :
  match getCurrentSessionCached (User := unit) (fun t => t) ∅ None 0 0 0 0 (mkDB ∅ ∅) with
  | (_, cache', _) => cache' !! None = Some (mkCacheEntry NoSession [] None)
  end.
Proof. reflexivity. Qed.

End SessionFacts.

Module GoogleLoginFacts.
Import GoogleLogin.

Lemma params_get_set_eq name v ps :
  params_get name (params_set name v ps) = Some v.
Proof.
  induction ps as [|[k w] rest IH]; simpl.
  - rewrite bool_decide_eq_true_2 by reflexivity. reflexivity.
  - case_bool_decide as Hk; simpl.
    + rewrite bool_decide_eq_true_2 by reflexivity. reflexivity.
    + rewrite bool_decide_eq_false_2 by exact Hk. exact IH.
Qed.

Lemma params_get_filter_ne name k ps :
  k <> name ->
  params_get k (filter (fun kv : string * string => kv.1 <> name) ps) = params_get k ps.
Proof.
  intros Hne. induction ps as [|[k' w] rest IH]; simpl; [reflexivity|].
  rewrite filter_cons. simpl.
  case_decide as Hn; simpl.
  - case_bool_decide; [reflexivity|exact IH].
  - subst k'.
    rewrite bool_decide_eq_false_2 by (intros ->; exact (Hne eq_refl)). exact IH.
Qed.

Lemma params_get_set_ne name k v ps :
  k <> name -> params_get k (params_set name v ps) = params_get k ps.
Proof.
  intros Hne. induction ps as [|[k' w] rest IH]; simpl.
  - rewrite bool_decide_eq_false_2 by (intros ->; exact (Hne eq_refl)). reflexivity.
  - case_bool_decide as Hk'; simpl.
    + subst k'. rewrite bool_decide_eq_false_2 by (intros ->; exact (Hne eq_refl)).
      apply params_get_filter_ne. exact Hne.
    + case_bool_decide; [reflexivity|exact IH].
Qed.

(** ** C8 *)

(** C8: [GET] answers 302 with [Location] the serialised authorization URL
    that the client builds from [state], [codeVerifier] and the scopes
    [openid], [profile], with [prompt=select_account] set and every other
    query parameter of the client's URL kept; it stores [state] in
    [google_oauth_state] and the verifier in [google_code_verifier] with
    path [/], HTTP-only, same-site lax, a 600-second max age, and secure
    exactly in production, and changes no other cookie. *)
Theorem GET_redirect_and_cookies createAuthorizationURL url_toString
    (state codeVerifier NODE_ENV : string) (cookieStore : CookieStore) :
  let u0 := createAuthorizationURL state codeVerifier ["openid"; "profile"] in
  let u := url_set_param "prompt" "select_account" u0 in
  let opts := oauth_cookie_options NODE_ENV in
  let '(resp, store') := GET createAuthorizationURL url_toString state codeVerifier
                            NODE_ENV cookieStore in
  status resp = 302 /\
  headers resp = [("Location", url_toString u)] /\
  body resp = None /\
  base u = base u0 /\
  params_get "prompt" (searchParams u) = Some "select_account" /\
  (forall k, k <> "prompt" -> params_get k (searchParams u) = params_get k (searchParams u0)) /\
  store' !! "google_oauth_state" = Some (state, opts) /\
  store' !! "google_code_verifier" = Some (codeVerifier, opts) /\
  (forall k, k <> "google_oauth_state" -> k <> "google_code_verifier" ->
     store' !! k = cookieStore !! k) /\
  path opts = "/" /\ httpOnly opts = true /\ sameSite opts = "lax" /\
  maxAge opts = Some 600 /\
  (secure opts = true <-> NODE_ENV = "production").
Proof.
  unfold GET; simpl.
  split; [reflexivity|]. split; [reflexivity|]. split; [reflexivity|].
  split; [reflexivity|].
  split; [apply params_get_set_eq|].
  split; [intros k Hk; apply params_get_set_ne; exact Hk|].
  split; [rewrite lookup_insert_ne by discriminate; apply lookup_insert_eq|].
  split; [apply lookup_insert_eq|].
  split.
  { intros k H1 H2. rewrite !lookup_insert_ne by congruence. reflexivity. }
  do 4 (split; [reflexivity|]).
  unfold is_production. split.
  - intros H. apply bool_decide_eq_true_1 in H. exact H.
  - intros H. apply bool_decide_eq_true_2. exact H.
Qed.

End GoogleLoginFacts.

(** * Instances on concrete data: the user table holds user 1 (rows of
    type [unit]); the hash is the identity on strings. *)
Module Instances.
Import SessionStore.

Lemma validate_after_create_witness :
  createSession (fun t : string => t) "tok" 1 0 (mkDB (User := unit) ∅ {[1 := tt]})
    = Some (mkSession "tok" 1 (DAY * 30),
            mkDB {["tok" := mkSession "tok" 1 (DAY * 30)]} {[1 := tt]}) /\
  exists u : unit,
    userTable (mkDB (User := unit) ∅ {[1 := tt]}) !! 1 = Some u /\
    validate_at (fun t : string => t) "tok" 0
      (mkDB {["tok" := mkSession "tok" 1 (DAY * 30)]} {[1 := tt]})
      = (Valid (mkSession "tok" 1 (DAY * 30)) u,
         mkDB {["tok" := mkSession "tok" 1 (DAY * 30)]} {[1 := tt]}).
Proof.
  split; [reflexivity|].
  apply (SessionFacts.validate_after_create (fun t : string => t) "tok" 1 0
           (mkDB (User := unit) ∅ {[1 := tt]})).
  reflexivity.
Defined.

Lemma validate_sliding_window_witness :
  createSession (fun t : string => t) "tok" 1 0 (mkDB (User := unit) ∅ {[1 := tt]})
    = Some (mkSession "tok" 1 (DAY * 30),
            mkDB {["tok" := mkSession "tok" 1 (DAY * 30)]} {[1 := tt]}) /\
  exists (u : unit) db2,
    validate_at (fun t : string => t) "tok" (0 + DAY * 20)
      (mkDB {["tok" := mkSession "tok" 1 (DAY * 30)]} {[1 := tt]})
      = (Valid (mkSession "tok" 1 (0 + DAY * 50)) u, db2) /\
    fst (validate_at (fun t : string => t) "tok" (0 + DAY * 51) db2) = NoSession.
Proof.
  split; [reflexivity|].
  apply (proj2 (SessionFacts.validate_sliding_window (fun t : string => t) "tok")
           1 0 (mkDB (User := unit) ∅ {[1 := tt]}) (mkSession "tok" 1 (DAY * 30))).
  reflexivity.
Defined.

Lemma validate_expired_deletes_witness :
  db_wf (mkDB (User := unit) {["tok" := mkSession "tok" 1 5]} {[1 := tt]}) /\
  sessionTable (mkDB (User := unit) {["tok" := mkSession "tok" 1 5]} {[1 := tt]}) !! "tok"
    = Some (mkSession "tok" 1 5) /\
  5 <= 10 /\
  validateSessionToken (fun t : string => t) "tok" 10 10 10
      (mkDB (User := unit) {["tok" := mkSession "tok" 1 5]} {[1 := tt]})
    = (NoSession, delete_session_by_id "tok"
                    (mkDB (User := unit) {["tok" := mkSession "tok" 1 5]} {[1 := tt]})) /\
  sessionTable (delete_session_by_id "tok"
                  (mkDB (User := unit) {["tok" := mkSession "tok" 1 5]} {[1 := tt]})) !! "tok"
    = None.
Proof.
  assert (Hwf : db_wf (mkDB (User := unit) {["tok" := mkSession "tok" 1 5]} {[1 := tt]})).
  { intros k s Hk. simpl in Hk. apply lookup_singleton_Some in Hk as [<- <-].
    split; [reflexivity|]. exists tt. reflexivity. }
  split; [exact Hwf|]. split; [reflexivity|]. split; [lia|].
  apply (SessionFacts.validate_expired_deletes (fun t : string => t) "tok" 10 10 10
           _ (mkSession "tok" 1 5) Hwf); [reflexivity | simpl; lia].
Defined.

Lemma validate_returns_fresh_witness :
  DAY * 10 <= DAY * 10 <= DAY * 10 /\
  validateSessionToken (fun t : string => t) "tok" (DAY * 10) (DAY * 10) (DAY * 10)
      (mkDB (User := unit) {["tok" := mkSession "tok" 1 (DAY * 20)]} {[1 := tt]})
    = (Valid (mkSession "tok" 1 (DAY * 10 + DAY * 30)) tt,
       update_expiresAt "tok" (DAY * 10 + DAY * 30)
         (mkDB (User := unit) {["tok" := mkSession "tok" 1 (DAY * 20)]} {[1 := tt]})) /\
  (DAY * 10 + DAY * 15 < DAY * 10 + DAY * 30 /\ DAY * 10 + DAY * 15 < DAY * 10 + DAY * 30).
Proof.
  assert (Hv : validateSessionToken (fun t : string => t) "tok" (DAY * 10) (DAY * 10) (DAY * 10)
      (mkDB (User := unit) {["tok" := mkSession "tok" 1 (DAY * 20)]} {[1 := tt]})
    = (Valid (mkSession "tok" 1 (DAY * 10 + DAY * 30)) tt,
       update_expiresAt "tok" (DAY * 10 + DAY * 30)
         (mkDB (User := unit) {["tok" := mkSession "tok" 1 (DAY * 20)]} {[1 := tt]})))
    by reflexivity.
  split; [unfold DAY; lia|]. split; [exact Hv|].
  exact (SessionFacts.validate_returns_fresh (fun t : string => t) "tok"
           (DAY * 10) (DAY * 10) (DAY * 10) _ _ _ _ ltac:(unfold DAY; lia) Hv).
Defined.

End Instances.

Module ExtraFacts.
Import SessionStore SessionFacts.

Section Extra.

Context {User : Type}.
Context (hashToken : string -> string).

Implicit Types (db : DB User) (token sid : string) (uid now : Z).

Lemma createSession_preserves_wf token uid now db s db' :
  db_wf db -> createSession hashToken token uid now db = Some (s, db') -> db_wf db'.
Proof.
  intros Hwf. unfold createSession, insert_session; simpl.
  destruct (sessionTable db !! hashToken token); [discriminate|].
  destruct (userTable db !! uid) as [u|] eqn:Hu; [|discriminate].
  intros H; inversion H; subst; clear H.
  intros k s' Hk; simpl in *. rewrite lookup_insert in Hk.
  case_decide as Heq.
  - inversion Hk; subst. simpl. split; [reflexivity|]. rewrite Hu. eexists; reflexivity.
  - exact (Hwf _ _ Hk).
Qed.

Lemma validate_preserves_wf token t1 t2 t3 db :
  db_wf db -> db_wf (snd (validateSessionToken hashToken token t1 t2 t3 db)).
Proof.
  intros Hwf. unfold validateSessionToken.
  destruct (select_session_user (hashToken token) db) as [[u s]|]; [|exact Hwf].
  destruct (t1 >=? expiresAt s); [|destruct (t2 >=? expiresAt s - DAY * 15)]; simpl.
  - intros k s' Hk. simpl in Hk. apply lookup_delete_Some in Hk as [_ Hk].
    exact (Hwf _ _ Hk).
  - intros k s' Hk. simpl in Hk. apply lookup_alter_Some in Hk
      as [[<- [x [Hx ->]]]|[_ Hk]].
    + destruct (Hwf _ _ Hx) as [Hid Hu]. simpl. split; [exact Hid|exact Hu].
    + exact (Hwf _ _ Hk).
  - exact Hwf.
Qed.

Lemma step_preserves_wf db op : db_wf db -> db_wf (step hashToken db op).
Proof.
  intros Hwf. destruct op as [token uid now|token t1 t2 t3|sid|uid]; simpl.
  - destruct (createSession hashToken token uid now db) as [[s db']|] eqn:Hc; [|exact Hwf].
    exact (createSession_preserves_wf _ _ _ _ _ _ Hwf Hc).
  - apply validate_preserves_wf. exact Hwf.
  - intros k s Hk. simpl in Hk. apply lookup_delete_Some in Hk as [_ Hk].
    exact (Hwf _ _ Hk).
  - intros k s Hk. simpl in Hk. apply map_lookup_filter_Some in Hk as [Hk _].
    exact (Hwf _ _ Hk).
Qed.

(** Every session row stays stored under its own id with an existing owner
    across any sequence of create, validate and invalidate calls. *)
Theorem run_preserves_wf ops db :
  db_wf db -> db_wf (run hashToken ops db).
Proof.
  revert db. induction ops as [|op ops IH]; intros db Hwf; [exact Hwf|].
  unfold run; simpl. apply IH. apply step_preserves_wf. exact Hwf.
Qed.

(** No session-manager call ever writes the user table. *)
Theorem run_keeps_userTable ops db :
  userTable (run hashToken ops db) = userTable db.
Proof.
  unfold run. revert db. induction ops as [|op ops IH]; intros db; [reflexivity|].
  simpl. rewrite IH.
  destruct op as [token uid now|token t1 t2 t3|sid|uid]; simpl; try reflexivity.
  - unfold createSession, insert_session. cbn [id userId expiresAt].
    destruct (sessionTable db !! hashToken token); [reflexivity|].
    destruct (userTable db !! uid); reflexivity.
  - unfold validateSessionToken.
    destruct (select_session_user (hashToken token) db) as [[u s]|]; [|reflexivity].
    destruct (t1 >=? expiresAt s); [reflexivity|].
    destruct (t2 >=? expiresAt s - DAY * 15); reflexivity.
Qed.

(** [createSession] succeeds exactly when no session is stored under the
    token's hash and the user exists: it never overwrites a session. *)
Theorem createSession_succeeds_iff token uid now db :
  (is_Some (sessionTable db !! hashToken token) ->
     createSession hashToken token uid now db = None) /\
  (userTable db !! uid = None -> createSession hashToken token uid now db = None) /\
  (sessionTable db !! hashToken token = None -> is_Some (userTable db !! uid) ->
     exists s db', createSession hashToken token uid now db = Some (s, db')).
Proof.
  unfold createSession, insert_session; simpl. split; [|split].
  - intros [s0 Hs0]. rewrite Hs0. reflexivity.
  - intros Hu. destruct (sessionTable db !! hashToken token); [reflexivity|].
    rewrite Hu. reflexivity.
  - intros Hn [u Hu]. rewrite Hn, Hu. eexists; eexists; reflexivity.
Qed.

(** Validation writes at most the row stored under the token's hash: every
    other session row is left as it was. *)
Theorem validate_frame token t1 t2 t3 db k :
  db_wf db -> k <> hashToken token ->
  sessionTable (snd (validateSessionToken hashToken token t1 t2 t3 db)) !! k
    = sessionTable db !! k.
Proof.
  intros Hwf Hk. unfold validateSessionToken.
  destruct (select_session_user (hashToken token) db) as [[u s]|] eqn:Hsel; [|reflexivity].
  apply select_session_user_Some in Hsel as [Hs _].
  destruct (Hwf _ _ Hs) as [Hid _].
  destruct (t1 >=? expiresAt s); [|destruct (t2 >=? expiresAt s - DAY * 15)]; simpl.
  - rewrite Hid. apply lookup_delete_ne. congruence.
  - rewrite Hid. apply lookup_alter_ne. congruence.
  - reflexivity.
Qed.

(** A session returned by validation is the row stored afterwards under the
    token's hash, and the returned user is its owner's row. *)
Theorem validate_result_stored token t1 t2 t3 db s u db' :
  db_wf db ->
  validateSessionToken hashToken token t1 t2 t3 db = (Valid s u, db') ->
  sessionTable db' !! hashToken token = Some s /\ userTable db' !! userId s = Some u.
Proof.
  intros Hwf. unfold validateSessionToken.
  destruct (select_session_user (hashToken token) db) as [[u0 s0]|] eqn:Hsel; [|discriminate].
  apply select_session_user_Some in Hsel as [Hs Hu].
  destruct (Hwf _ _ Hs) as [Hid _].
  destruct (t1 >=? expiresAt s0); [discriminate|].
  destruct (t2 >=? expiresAt s0 - DAY * 15); intros H; inversion H; subst; clear H; simpl.
  - rewrite Hid, lookup_alter_eq, Hs. simpl. rewrite Hid. auto.
  - auto.
Qed.

(** Validation never shortens a session: it returns the stored row as it
    is, or one whose expiry is at least 15 days past the stored expiry
    (clock readings in order). *)
Theorem validate_never_shortens token t1 t2 t3 db s0 s u db' :
  t2 <= t3 ->
  sessionTable db !! hashToken token = Some s0 ->
  validateSessionToken hashToken token t1 t2 t3 db = (Valid s u, db') ->
  s = s0 \/ expiresAt s0 + DAY * 15 <= expiresAt s.
Proof.
  intros Ht Hs0. pose proof DAY_pos as Hday. unfold validateSessionToken.
  destruct (select_session_user (hashToken token) db) as [[u1 s1]|] eqn:Hsel; [|discriminate].
  apply select_session_user_Some in Hsel as [Hs _].
  rewrite Hs0 in Hs. inversion Hs; subst s1; clear Hs.
  destruct (t1 >=? expiresAt s0); [discriminate|].
  destruct (t2 >=? expiresAt s0 - DAY * 15) eqn:E; intros H; inversion H; subst; clear H.
  - right. simpl. apply Z.geb_le in E. lia.
  - left. reflexivity.
Qed.

(** After [invalidateSession] of a token's hash, validating that token at
    any time yields "no session" and writes nothing. *)
Theorem validate_after_invalidateSession token t1 t2 t3 db :
  validateSessionToken hashToken token t1 t2 t3 (invalidateSession (hashToken token) db)
    = (NoSession, invalidateSession (hashToken token) db).
Proof.
  unfold validateSessionToken, select_session_user, invalidateSession,
    delete_session_by_id; simpl.
  rewrite lookup_delete_eq. reflexivity.
Qed.

(** After [invalidateAllSessions(uid)], no validation returns a session
    owned by [uid]. *)
Theorem validate_after_invalidateAll token t1 t2 t3 uid db :
  match fst (validateSessionToken hashToken token t1 t2 t3 (invalidateAllSessions uid db)) with
  | Valid s _ => userId s <> uid
  | NoSession => True
  end.
Proof.
  unfold validateSessionToken.
  destruct (select_session_user (hashToken token) (invalidateAllSessions uid db))
    as [[u s]|] eqn:Hsel; [|exact I].
  apply select_session_user_Some in Hsel as [Hs _].
  simpl in Hs. apply map_lookup_filter_Some in Hs as [_ Hne]. simpl in Hne.
  destruct (t1 >=? expiresAt s); [exact I|].
  destruct (t2 >=? expiresAt s - DAY * 15); exact Hne.
Qed.

(** A session row whose owner's user row is missing is never returned and
    never deleted or renewed by validation, even once expired. *)
Theorem validate_orphan_untouched token t1 t2 t3 db s :
  sessionTable db !! hashToken token = Some s ->
  userTable db !! userId s = None ->
  validateSessionToken hashToken token t1 t2 t3 db = (NoSession, db).
Proof.
  intros Hs Hu. unfold validateSessionToken, select_session_user.
  rewrite Hs, Hu. reflexivity.
Qed.

(** Once validation finds a session expired, every later validation of the
    token yields "no session". *)
Theorem expired_stays_gone token t1 t2 t3 t1' t2' t3' db s :
  db_wf db ->
  sessionTable db !! hashToken token = Some s ->
  expiresAt s <= t1 ->
  fst (validateSessionToken hashToken token t1' t2' t3'
         (snd (validateSessionToken hashToken token t1 t2 t3 db))) = NoSession.
Proof.
  intros Hwf Hs Hle.
  destruct (select_session_user_wf _ _ _ Hwf Hs) as [u [Hsel Hid]].
  unfold validateSessionToken at 2. rewrite Hsel.
  rewrite (geb_true_of_le t1 (expiresAt s)) by exact Hle. simpl.
  unfold validateSessionToken, select_session_user; simpl.
  rewrite Hid, lookup_delete_eq. reflexivity.
Qed.

(** A request without a session cookie never reaches the database and gets
    "no session", and the cache keeps holding "no session" for it. *)
Theorem getCurrentSession_no_cookie cookieStore cache t1 t2 t3 t4 db :
  cache_wf cache ->
  cookieStore !! "session" = None ->
  exists cache',
    getCurrentSession hashToken cookieStore cache t1 t2 t3 t4 db = (NoSession, cache', db) /\
    cache_wf cache'.
Proof.
  intros Hc Hn. unfold getCurrentSession, getCurrentSessionCached. rewrite Hn.
  destruct (cache !! None) as [e|] eqn:He.
  - exists cache. rewrite (Hc e He). auto.
  - simpl. eexists. split; [reflexivity|].
    intros e He'. rewrite lookup_insert_eq in He'. inversion He'. reflexivity.
Qed.

(** Every call of [getCurrentSessionCached] keeps the cache invariant. *)
Theorem getCurrentSessionCached_preserves_cache_wf cache (token : option string)
    (t1 t2 t3 t4 : Z) db :
  cache_wf cache ->
  cache_wf (snd (fst (getCurrentSessionCached hashToken cache token t1 t2 t3 t4 db))).
Proof.
  intros Hc. unfold getCurrentSessionCached.
  destruct (cache !! token) as [e|] eqn:He; [exact Hc|].
  destruct (getCurrentSessionCached_body hashToken token t1 t2 t3 t4 db) as [e db'] eqn:Hb.
  simpl. intros e' He'. rewrite lookup_insert in He'. case_decide as Heq.
  - subst token. inversion He'; subst. unfold getCurrentSessionCached_body in Hb.
    inversion Hb. reflexivity.
  - exact (Hc e' He').
Qed.

End Extra.

End ExtraFacts.

Module SessionCookieFacts.
Import SessionCookies.

(** [setSessionTokenCookie] and [deleteSessionTokenCookie] touch only the
    [session] cookie; [deleteSessionTokenCookie] after
    [setSessionTokenCookie] is the same as [deleteSessionTokenCookie]
    alone; the cleared cookie is empty with [maxAge] 0 and carries the
    same [httpOnly], [sameSite], [secure] and [path] as the cookie set. *)
Theorem session_cookie_set_delete (NODE_ENV token : string) (expiresAt : Z)
    (cookieStore : SessionCookieStore) :
  deleteSessionTokenCookie NODE_ENV (setSessionTokenCookie NODE_ENV token expiresAt cookieStore)
    = deleteSessionTokenCookie NODE_ENV cookieStore /\
  (forall k, k <> "session" ->
     setSessionTokenCookie NODE_ENV token expiresAt cookieStore !! k = cookieStore !! k /\
     deleteSessionTokenCookie NODE_ENV cookieStore !! k = cookieStore !! k) /\
  exists o1 o2,
    setSessionTokenCookie NODE_ENV token expiresAt cookieStore !! "session" = Some (token, o1) /\
    deleteSessionTokenCookie NODE_ENV cookieStore !! "session" = Some ("", o2) /\
    expires o1 = Some expiresAt /\ maxAge o2 = Some 0 /\
    httpOnly o1 = true /\ httpOnly o2 = true /\
    sameSite o1 = sameSite o2 /\ secure o1 = secure o2 /\ path o1 = path o2.
Proof.
  unfold deleteSessionTokenCookie, setSessionTokenCookie.
  split; [apply insert_insert_eq|].
  split.
  - intros k Hk. split; apply lookup_insert_ne; congruence.
  - eexists; eexists. rewrite !lookup_insert_eq.
    repeat split; reflexivity.
Qed.

End SessionCookieFacts.

Module HeroIconFacts.
Import HeroIcon.

(** Before mounting nothing is rendered; once mounted the default icon
    [/icon.png] is shown exactly when the theme is not [blue], [purple] or
    [monochrome] (so also for [green], an unknown theme or no theme). *)
Theorem ThemedHeroIcon_default (theme : option string) :
  ThemedHeroIcon false theme = None /\
  (ThemedHeroIcon true theme = Some "/icon.png" <->
   theme <> Some "blue" /\ theme <> Some "purple" /\ theme <> Some "monochrome").
Proof.
  unfold ThemedHeroIcon, icon_src. split; [reflexivity|]. simpl.
  destruct theme as [t|].
  - destruct (String.eqb_spec t "green") as [->|Hg]; [split; [intros _; repeat split; congruence|reflexivity]|].
    destruct (String.eqb_spec t "blue") as [->|Hb];
      [split; [intros H; discriminate H|intros [H _]; exfalso; apply H; reflexivity]|].
    destruct (String.eqb_spec t "purple") as [->|Hp];
      [split; [intros H; discriminate H|intros [_ [H _]]; exfalso; apply H; reflexivity]|].
    destruct (String.eqb_spec t "monochrome") as [->|Hm];
      [split; [intros H; discriminate H|intros [_ [_ H]]; exfalso; apply H; reflexivity]|].
    split; [intros _; repeat split; congruence|reflexivity].
  - split; [intros _; repeat split; discriminate|reflexivity].
Qed.

End HeroIconFacts.

(** * Instances of the further properties on concrete data. *)
Module ExtraInstances.
Import SessionStore.

Abbreviation idh := (fun t : string => t).

(** A database with one session row, owned by an existing user. *)
Lemma db_wf_single (k : string) (u e : Z) :
  db_wf (mkDB (User := unit) {[k := mkSession k u e]} {[u := tt]}).
Proof.
  intros k' s Hk. simpl in Hk. apply lookup_singleton_Some in Hk as [<- <-].
  split; [reflexivity|]. exists tt. simpl. apply lookup_singleton_eq.
Qed.

Lemma run_preserves_wf_witness :
  db_wf (mkDB (User := unit) {["tok" := mkSession "tok" 1 (DAY * 20)]} {[1 := tt]}) /\
  db_wf (run idh [OpValidate "tok" (DAY * 10) (DAY * 10) (DAY * 10); OpCreate "t2" 1 0;
                  OpCreate "t3" 2 0; OpInvalidateAll 1]
           (mkDB (User := unit) {["tok" := mkSession "tok" 1 (DAY * 20)]} {[1 := tt]})).
Proof.
  split; [apply db_wf_single|].
  apply ExtraFacts.run_preserves_wf. apply db_wf_single.
Defined.

Lemma validate_frame_witness :
  db_wf (mkDB (User := unit) {["tok" := mkSession "tok" 1 5]} {[1 := tt]}) /\
  "other" <> "tok" /\
  sessionTable (snd (validateSessionToken idh "tok" 10 10 10
                       (mkDB (User := unit) {["tok" := mkSession "tok" 1 5]} {[1 := tt]})))
    !! "other"
  = sessionTable (mkDB (User := unit) {["tok" := mkSession "tok" 1 5]} {[1 := tt]}) !! "other".
Proof.
  split; [apply db_wf_single|]. split; [discriminate|].
  apply ExtraFacts.validate_frame; [apply db_wf_single|discriminate].
Defined.

Lemma validate_result_stored_witness :
  db_wf (mkDB (User := unit) {["tok" := mkSession "tok" 1 (DAY * 20)]} {[1 := tt]}) /\
  validateSessionToken idh "tok" (DAY * 10) (DAY * 10) (DAY * 10)
      (mkDB (User := unit) {["tok" := mkSession "tok" 1 (DAY * 20)]} {[1 := tt]})
    = (Valid (mkSession "tok" 1 (DAY * 10 + DAY * 30)) tt,
       update_expiresAt "tok" (DAY * 10 + DAY * 30)
         (mkDB (User := unit) {["tok" := mkSession "tok" 1 (DAY * 20)]} {[1 := tt]})) /\
  sessionTable (update_expiresAt "tok" (DAY * 10 + DAY * 30)
                  (mkDB (User := unit) {["tok" := mkSession "tok" 1 (DAY * 20)]} {[1 := tt]}))
    !! "tok" = Some (mkSession "tok" 1 (DAY * 10 + DAY * 30)) /\
  userTable (update_expiresAt "tok" (DAY * 10 + DAY * 30)
               (mkDB (User := unit) {["tok" := mkSession "tok" 1 (DAY * 20)]} {[1 := tt]}))
    !! userId (mkSession "tok" 1 (DAY * 10 + DAY * 30)) = Some tt.
Proof.
  assert (Hv : validateSessionToken idh "tok" (DAY * 10) (DAY * 10) (DAY * 10)
      (mkDB (User := unit) {["tok" := mkSession "tok" 1 (DAY * 20)]} {[1 := tt]})
    = (Valid (mkSession "tok" 1 (DAY * 10 + DAY * 30)) tt,
       update_expiresAt "tok" (DAY * 10 + DAY * 30)
         (mkDB (User := unit) {["tok" := mkSession "tok" 1 (DAY * 20)]} {[1 := tt]})))
    by reflexivity.
  split; [apply db_wf_single|]. split; [exact Hv|].
  exact (ExtraFacts.validate_result_stored idh "tok" _ _ _ _ _ _ _ (db_wf_single _ _ _) Hv).
Defined.

Lemma validate_never_shortens_witness :
  DAY * 10 <= DAY * 10 /\
  sessionTable (mkDB (User := unit) {["tok" := mkSession "tok" 1 (DAY * 20)]} {[1 := tt]})
    !! "tok" = Some (mkSession "tok" 1 (DAY * 20)) /\
  validateSessionToken idh "tok" (DAY * 10) (DAY * 10) (DAY * 10)
      (mkDB (User := unit) {["tok" := mkSession "tok" 1 (DAY * 20)]} {[1 := tt]})
    = (Valid (mkSession "tok" 1 (DAY * 10 + DAY * 30)) tt,
       update_expiresAt "tok" (DAY * 10 + DAY * 30)
         (mkDB (User := unit) {["tok" := mkSession "tok" 1 (DAY * 20)]} {[1 := tt]})) /\
  (mkSession "tok" 1 (DAY * 10 + DAY * 30) = mkSession "tok" 1 (DAY * 20) \/
   DAY * 20 + DAY * 15 <= DAY * 10 + DAY * 30).
Proof.
  assert (Hv : validateSessionToken idh "tok" (DAY * 10) (DAY * 10) (DAY * 10)
      (mkDB (User := unit) {["tok" := mkSession "tok" 1 (DAY * 20)]} {[1 := tt]})
    = (Valid (mkSession "tok" 1 (DAY * 10 + DAY * 30)) tt,
       update_expiresAt "tok" (DAY * 10 + DAY * 30)
         (mkDB (User := unit) {["tok" := mkSession "tok" 1 (DAY * 20)]} {[1 := tt]})))
    by reflexivity.
  split; [lia|]. split; [reflexivity|]. split; [exact Hv|].
  apply (ExtraFacts.validate_never_shortens idh "tok" (DAY * 10) (DAY * 10) (DAY * 10)
           (mkDB (User := unit) {["tok" := mkSession "tok" 1 (DAY * 20)]} {[1 := tt]}) (mkSession "tok" 1 (DAY * 20)) (mkSession "tok" 1 (DAY * 10 + DAY * 30)) tt
           (update_expiresAt "tok" (DAY * 10 + DAY * 30)
              (mkDB (User := unit) {["tok" := mkSession "tok" 1 (DAY * 20)]} {[1 := tt]})));
    [lia|reflexivity|exact Hv].
Defined.

Lemma validate_orphan_untouched_witness :
  sessionTable (mkDB (User := unit) {["tok" := mkSession "tok" 2 5]} {[1 := tt]}) !! "tok"
    = Some (mkSession "tok" 2 5) /\
  userTable (mkDB (User := unit) {["tok" := mkSession "tok" 2 5]} {[1 := tt]})
    !! userId (mkSession "tok" 2 5) = None /\
  validateSessionToken idh "tok" 10 10 10
      (mkDB (User := unit) {["tok" := mkSession "tok" 2 5]} {[1 := tt]})
    = (NoSession, mkDB (User := unit) {["tok" := mkSession "tok" 2 5]} {[1 := tt]}).
Proof.
  split; [reflexivity|]. split; [reflexivity|].
  apply ExtraFacts.validate_orphan_untouched with (s := mkSession "tok" 2 5); reflexivity.
Defined.

Lemma expired_stays_gone_witness :
  db_wf (mkDB (User := unit) {["tok" := mkSession "tok" 1 5]} {[1 := tt]}) /\
  sessionTable (mkDB (User := unit) {["tok" := mkSession "tok" 1 5]} {[1 := tt]}) !! "tok"
    = Some (mkSession "tok" 1 5) /\
  5 <= 10 /\
  fst (validateSessionToken idh "tok" 0 0 0
         (snd (validateSessionToken idh "tok" 10 10 10
                 (mkDB (User := unit) {["tok" := mkSession "tok" 1 5]} {[1 := tt]}))))
    = NoSession.
Proof.
  split; [apply db_wf_single|]. split; [reflexivity|]. split; [lia|].
  apply (ExtraFacts.expired_stays_gone idh "tok" 10 10 10 0 0 0 _ (mkSession "tok" 1 5));
    [apply db_wf_single|reflexivity|simpl; lia].
Defined.

Lemma getCurrentSession_no_cookie_witness :
  cache_wf (User := unit) ∅ /\
  (∅ : gmap string string) !! "session" = None /\
  exists cache',
    getCurrentSession idh ∅ ∅ 0 0 0 0 (mkDB (User := unit) {["tok" := mkSession "tok" 1 5]} {[1 := tt]})
      = (NoSession, cache', mkDB (User := unit) {["tok" := mkSession "tok" 1 5]} {[1 := tt]}) /\
    cache_wf cache'.
Proof.
  assert (Hc : cache_wf (User := unit) ∅) by (intros e He; discriminate He).
  split; [exact Hc|]. split; [reflexivity|].
  apply ExtraFacts.getCurrentSession_no_cookie; [exact Hc|reflexivity].
Defined.

Lemma getCurrentSessionCached_preserves_cache_wf_witness :
  cache_wf (User := unit) ∅ /\
  cache_wf (snd (fst (getCurrentSessionCached idh ∅ (Some "tok") 0 0 0 0
                        (mkDB (User := unit) {["tok" := mkSession "tok" 1 (DAY * 20)]} {[1 := tt]})))).
Proof.
  assert (Hc : cache_wf (User := unit) ∅) by (intros e He; discriminate He).
  split; [exact Hc|].
  apply ExtraFacts.getCurrentSessionCached_preserves_cache_wf. exact Hc.
Defined.

End ExtraInstances.
